(** * Money and the DCI bank-account transfer of dci-example-rust

    A shallow embedding of [src/money.rs] and [src/bank_account.rs].

    The [rust_decimal] crate's [Decimal] is a 96-bit signed mantissa with a
    scale in [0, 28]; it is modelled as a record of a [Z] mantissa and a [nat]
    scale, with the operations the code uses ([rescale], [+], unary [-],
    [/], comparisons).  A Rust panic is modelled by the [outcome] type, and a
    [Result] by [result]; the [?] operator is [tbind]. *)

From Stdlib Require Import ZArith Lia String Bool.

Open Scope Z_scope.

(** ** Panics and results *)

Inductive outcome (A : Type) : Type :=
| Ret (a : A)
| Panic (msg : string).
Arguments Ret {A} a.
Arguments Panic {A} msg.

Definition obind {A B : Type} (x : outcome A) (f : A -> outcome B) : outcome B :=
  match x with
  | Ret a => f a
  | Panic m => Panic m
  end.

Inductive result (T E : Type) : Type :=
| Ok (t : T)
| Err (e : E).
Arguments Ok {T E} t.
Arguments Err {T E} e.

(** The [?] operator: an [Err] is returned at once, a panic unwinds. *)
Definition tbind {A B E : Type} (x : outcome (result A E))
  (f : A -> outcome (result B E)) : outcome (result B E) :=
  obind x (fun r => match r with Ok a => f a | Err e => Ret (Err e) end).

Notation "x <- c1 ;; c2" := (obind c1 (fun x => c2))
  (at level 61, c1 at next level, right associativity).
Notation "x <-? c1 ;; c2" := (tbind c1 (fun x => c2))
  (at level 61, c1 at next level, right associativity).

(** ** The [rust_decimal] crate's [Decimal] *)

Module Decimal.

Record Decimal : Type := mkDecimal { mantissa : Z; scale : nat }.

Definition MAX_PRECISION : nat := 28.

(** The mantissa is held in 96 bits next to a sign flag. *)
Definition MANTISSA_BOUND : Z := 2 ^ 96.

Definition fits (m : Z) : bool := Z.abs m <? MANTISSA_BOUND.

Definition wf (d : Decimal) : Prop :=
  fits (mantissa d) = true /\ (scale d <= MAX_PRECISION)%nat.

Definition pow10 (k : nat) : Z := 10 ^ Z.of_nat k.

Definition zero : Decimal := mkDecimal 0 0.

Definition from_i32 (n : Z) : Decimal := mkDecimal n 0.

Definition MAX : Decimal := mkDecimal (MANTISSA_BOUND - 1) 0.

Definition is_zero (d : Decimal) : bool := mantissa d =? 0.

(** [Neg]: flips the sign flag, the mantissa and scale are kept. *)
Definition neg (d : Decimal) : Decimal := mkDecimal (- mantissa d) (scale d).

(** [Ord]/[PartialEq] compare the numbers denoted, not the representations:
    [m1 / 10^s1] against [m2 / 10^s2]. *)
Definition cmp (d1 d2 : Decimal) : comparison :=
  Z.compare (mantissa d1 * pow10 (scale d2)) (mantissa d2 * pow10 (scale d1)).

Definition eqb (d1 d2 : Decimal) : bool :=
  match cmp d1 d2 with Eq => true | _ => false end.
Definition ltb (d1 d2 : Decimal) : bool :=
  match cmp d1 d2 with Lt => true | _ => false end.
Definition gtb (d1 d2 : Decimal) : bool :=
  match cmp d1 d2 with Gt => true | _ => false end.

(** [rescale], increasing the scale: the mantissa is multiplied by ten one
    digit at a time, and the loop stops at the first product that does not
    fit in 96 bits. *)
Fixpoint scale_up (m : Z) (s : nat) (k : nat) : Z * nat :=
  match k with
  | O => (m, s)
  | S k' => if fits (m * 10) then scale_up (m * 10) (S s) k' else (m, s)
  end.

(** [rescale], decreasing the scale: [k] digits are dropped and the result
    is rounded half away from zero (on the last digit dropped). *)
Definition round_away (m : Z) (k : nat) : Z :=
  let q := Z.abs m / pow10 k in
  let r := Z.abs m mod pow10 k in
  Z.sgn m * (if pow10 k <=? 2 * r then q + 1 else q).

Definition rescale (d : Decimal) (new_scale : nat) : Decimal :=
  let ns := Nat.min new_scale MAX_PRECISION in
  if Nat.eqb (scale d) ns then d
  else if mantissa d =? 0 then mkDecimal 0 ns
  else if Nat.ltb ns (scale d)
  then mkDecimal (round_away (mantissa d) (scale d - ns)) ns
  else let '(m, s) := scale_up (mantissa d) (scale d) (ns - scale d) in
       mkDecimal m s.

(** The operands aligned on the larger scale and added exactly. *)
Definition exact_sum (d1 d2 : Decimal) : Z * nat :=
  let s := Nat.max (scale d1) (scale d2) in
  (mantissa d1 * pow10 (s - scale d1) + mantissa d2 * pow10 (s - scale d2), s).

Definition round_half_even (m : Z) (k : nat) : Z :=
  let p := pow10 k in
  let q := Z.abs m / p in
  let r := Z.abs m mod p in
  Z.sgn m * (if p <? 2 * r then q + 1
             else if 2 * r =? p then (if Z.odd q then q + 1 else q)
             else q).

(** When the exact sum does not fit in 96 bits, digits are dropped (with
    rounding half to even on the exact quotient) until it does, as long as
    the scale allows it; otherwise the addition overflows. *)
Fixpoint reduce_from (m : Z) (s : nat) (k : nat) (fuel : nat) : option Decimal :=
  match fuel with
  | O => None
  | S f =>
      if Nat.ltb s k then None
      else let q := round_half_even m k in
           if fits q then Some (mkDecimal q (s - k)) else reduce_from m s (S k) f
  end.

(** The exact sum as a decimal at the larger scale. *)
Definition exact_dec (d1 d2 : Decimal) : Decimal :=
  let '(m, s) := exact_sum d1 d2 in mkDecimal m s.

(** The mantissa of [d] written at scale [s] (for [s] at least [scale d]). *)
Definition at_scale (d : Decimal) (s : nat) : Z := mantissa d * pow10 (s - scale d).

(** The largest of three scales. *)
Definition common_scale3 (d1 d2 d3 : Decimal) : nat :=
  Nat.max (scale d1) (Nat.max (scale d2) (scale d3)).

(** Two nonzero operands: the exact sum at the larger scale, reduced when it
    does not fit. *)
Definition add_aligned (d1 d2 : Decimal) : outcome Decimal :=
  let '(m, s) := exact_sum d1 d2 in
  if fits m then Ret (mkDecimal m s)
  else match reduce_from m s 1 s with
       | Some d => Ret d
       | None => Panic "Addition overflowed"
       end.

(** [+]: a zero operand gives the other operand back unchanged, scale
    included ([0.00 + 5] is [5]); otherwise the operands are aligned and
    added. *)
Definition add (d1 d2 : Decimal) : outcome Decimal :=
  if is_zero d1 then Ret d2
  else if is_zero d2 then Ret d1
  else add_aligned d1 d2.

Section Division.

(** The quotient by a nonzero divisor (rounded to at most 28 digits by the
    crate, and panicking on overflow) is kept abstract: no property below
    depends on it. *)
Variable div_nonzero : Decimal -> Decimal -> outcome Decimal.

Definition div (d1 d2 : Decimal) : outcome Decimal :=
  if is_zero d2 then Panic "Division by zero" else div_nonzero d1 d2.

End Division.

(** [Decimal::abs]: clears the sign flag. *)
Definition abs (d : Decimal) : Decimal := mkDecimal (Z.abs (mantissa d)) (scale d).

Section Multiplication.

(** [*]: a zero operand gives [Decimal::zero()]; otherwise the product of the
    mantissas at the sum of the scales is returned when it fits in 96 bits
    with a scale of at most 28.  Beyond that the crate drops digits with
    rounding, or panics on overflow; that part is kept abstract. *)
Variable mul_reduce : Z -> nat -> outcome Decimal.

Definition mul (d1 d2 : Decimal) : outcome Decimal :=
  if is_zero d1 || is_zero d2 then Ret zero
  else let m := mantissa d1 * mantissa d2 in
       let s := (scale d1 + scale d2)%nat in
       if fits m && Nat.leb s MAX_PRECISION then Ret (mkDecimal m s)
       else mul_reduce m s.

End Multiplication.

End Decimal.

(** ** [iso_4217::CurrencyCode]: the codes the code names, and a few more,
    with their canonical fractional-digit counts ([digit]); codes such as
    XAU have none. *)

Inductive CurrencyCode : Type := USD | JPY | EUR | GBP | BHD | XAU | XXX.

Definition CurrencyCode_eq_dec (c1 c2 : CurrencyCode) : {c1 = c2} + {c1 <> c2}.
Proof. decide equality. Defined.

Definition currency_eqb (c1 c2 : CurrencyCode) : bool :=
  if CurrencyCode_eq_dec c1 c2 then true else false.

Definition digit (c : CurrencyCode) : option nat :=
  match c with
  | USD => Some 2%nat | JPY => Some 0%nat | EUR => Some 2%nat
  | GBP => Some 2%nat | BHD => Some 3%nat
  | XAU => None | XXX => None
  end.

(** ** [src/money.rs] *)

Module Money.
Import Decimal.

Record Money : Type := mkMoney { amount : Decimal; currency : CurrencyCode }.

Inductive MoneyError : Type := NotSameCurrencyError.

(** [#[derive(PartialEq)]]: both fields compared with their own [==]. *)
Definition eqb (m1 m2 : Money) : bool :=
  Decimal.eqb (amount m1) (amount m2) && currency_eqb (currency m1) (currency m2).

(** [impl PartialOrd for Money]. *)
Definition partial_cmp (self other : Money) : option comparison :=
  if negb (currency_eqb (currency self) (currency other)) then None
  else if gtb (amount self) (amount other) then Some Gt
  else if ltb (amount self) (amount other) then Some Lt
  else Some Eq.

(** [Money::new]: [currency.digit().unwrap()] panics on a code without
    digits. *)
Definition new (amount : Decimal) (currency : CurrencyCode) : outcome Money :=
  match digit currency with
  | None => Panic "called `Option::unwrap()` on a `None` value"
  | Some d => Ret (mkMoney (rescale amount d) currency)
  end.

Definition yens (amount : Decimal) : outcome Money := new amount JPY.
Definition yens_i32 (n : Z) : outcome Money := yens (from_i32 n).
Definition dollars (amount : Decimal) : outcome Money := new amount USD.
Definition zero (currency : CurrencyCode) : outcome Money :=
  new Decimal.zero currency.

Definition negated (self : Money) : Money :=
  mkMoney (neg (amount self)) (currency self).

Definition add (self other : Money) : outcome (result Money MoneyError) :=
  if negb (currency_eqb (currency self) (currency other))
  then Ret (Err NotSameCurrencyError)
  else a <- Decimal.add (amount self) (amount other) ;;
       Ret (Ok (mkMoney a (currency self))).

Definition subtract (self other : Money) : outcome (result Money MoneyError) :=
  add self (negated other).

Section Division.
Variable div_nonzero : Decimal -> Decimal -> outcome Decimal.

Definition divided_by (self : Money) (divisor : Decimal) : outcome Money :=
  a <- Decimal.div div_nonzero (amount self) divisor ;;
  Ret (mkMoney a (currency self)).

End Division.



(** [impl Add for Money] and [impl Sub for Money]:
    [.unwrap_or_else(|err| panic!(format!("{:?}", err)))]. *)
Definition unwrap_money (r : outcome (result Money MoneyError)) : outcome Money :=
  x <- r ;;
  match x with
  | Ok v => Ret v
  | Err NotSameCurrencyError => Panic "NotSameCurrencyError"
  end.

Definition op_add (self rhs : Money) : outcome Money := unwrap_money (add self rhs).
Definition op_sub (self rhs : Money) : outcome Money := unwrap_money (subtract self rhs).

Definition abs (self : Money) : Money :=
  mkMoney (Decimal.abs (amount self)) (currency self).

Definition is_positive (self : Money) : bool := gtb (amount self) Decimal.zero.
Definition is_negative (self : Money) : bool := ltb (amount self) Decimal.zero.
Definition is_zero (self : Money) : bool := Decimal.is_zero (amount self).

(** [from_numeric_impl!]: [Decimal::from(amount)] (scale 0), rescaled to
    [currency.digit().unwrap()], then passed to [Money::new]. *)
Definition from_int (amount : Z) (currency : CurrencyCode) : outcome Money :=
  match digit currency with
  | None => Panic "called `Option::unwrap()` on a `None` value"
  | Some d => new (rescale (mkDecimal amount 0) d) currency
  end.

Section Multiplication.
Variable mul_reduce : Z -> nat -> outcome Decimal.

Definition times (self : Money) (factor : Decimal) : outcome Money :=
  a <- Decimal.mul mul_reduce (amount self) factor ;;
  Ret (mkMoney a (currency self)).

End Multiplication.

End Money.

(** ** [src/bank_account.rs] *)

Module BankAccount.
Import Money.

Record BankAccount : Type := mkBankAccount {
  id : N;                 (* BankAccountId(u32) *)
  user_account_id : N;    (* UserAccountId(u32) *)
  balance : Money
}.

Definition new (id user_account_id : N) (balance : Money) : BankAccount :=
  mkBankAccount id user_account_id balance.

(** [self.balance = self.balance.add(amount)?; Ok(self)] *)
Definition deposit (self : BankAccount) (amount : Money)
  : outcome (result BankAccount MoneyError) :=
  b <-? Money.add (balance self) amount ;;
  Ret (Ok (mkBankAccount (id self) (user_account_id self) b)).

Definition withdraw (self : BankAccount) (amount : Money)
  : outcome (result BankAccount MoneyError) :=
  b <-? Money.subtract (balance self) amount ;;
  Ret (Ok (mkBankAccount (id self) (user_account_id self) b)).

(** The roles: traits with no data. *)
Class ReceiveRole (T : Type) : Type :=
  on_receive : T -> Money -> BankAccount -> outcome (result T MoneyError).

Class SenderRole (F T : Type) : Type :=
  send : F -> Money -> T -> outcome (result (F * T) MoneyError).

(** [impl ReceiveRole for BankAccount]: the sender's state [_from] is not
    read. *)
#[export] Instance BankAccount_ReceiveRole : ReceiveRole BankAccount :=
  fun self money _from =>
    new_state <-? deposit self money ;;
    Ret (Ok new_state).

(** [impl<T: ReceiveRole> SenderRole<T> for BankAccount]. *)
#[export] Instance BankAccount_SenderRole (T : Type) `{ReceiveRole T}
  : SenderRole BankAccount T :=
  fun self money to =>
    new_from <-? withdraw self money ;;
    new_to <-? on_receive to money new_from ;;
    Ret (Ok (new_from, new_to)).

(** The transfer context. *)
Record TransferContext (T F : Type) : Type := mkTransferContext {
  from : F;
  to : T
}.
Arguments mkTransferContext {T F} from to.
Arguments from {T F} t.
Arguments to {T F} t.

Definition transfer {T F : Type} `{ReceiveRole T} `{SenderRole F T}
  (self : TransferContext T F) (money : Money)
  : outcome (result (F * T) MoneyError) :=
  send (from self) money (to self).

(** [tests::test_dci]: up to the [unwrap] of the transfer. *)
Definition test_dci : outcome (result (BankAccount * BankAccount) MoneyError) :=
  z1 <- Money.zero JPY ;;
  let ba1 := new 1 1 z1 in
  thousand <- yens_i32 1000 ;;
  new_ba1 <-? deposit ba1 thousand ;;
  z2 <- Money.zero JPY ;;
  let ba2 := new 2 1 z2 in
  let context : TransferContext BankAccount BankAccount :=
    mkTransferContext new_ba1 ba2 in
  ten <- yens_i32 10 ;;
  transfer context ten.

End BankAccount.

(** * Properties *)

(** ** Arithmetic of the decimal model *)

Module DecimalFacts.
Import Decimal.

Lemma pow10_pos (k : nat) : 0 < pow10 k.
Proof. unfold pow10. apply Z.pow_pos_nonneg; lia. Qed.

Lemma pow10_add (a b : nat) : pow10 (a + b) = pow10 a * pow10 b.
Proof. unfold pow10. rewrite Nat2Z.inj_add. apply Z.pow_add_r; lia. Qed.

Lemma pow10_S (k : nat) : pow10 (S k) = 10 * pow10 k.
Proof. unfold pow10. rewrite Nat2Z.inj_succ, Z.pow_succ_r; lia. Qed.

Lemma fits_spec (m : Z) : fits m = true <-> Z.abs m < MANTISSA_BOUND.
Proof. unfold fits. apply Z.ltb_lt. Qed.

Lemma fits_mul_pow10 (x : Z) (k : nat) :
  fits (x * pow10 k) = true -> fits x = true.
Proof.
  rewrite !fits_spec, Z.abs_mul. pose proof (pow10_pos k).
  rewrite (Z.abs_eq (pow10 k)) by lia. nia.
Qed.



Lemma exact_sum_neg_self (d : Decimal) : exact_sum d (neg d) = (0, scale d).
Proof.
  unfold exact_sum, neg. simpl. rewrite Nat.max_id, Nat.sub_diag. f_equal. lia.
Qed.

Lemma pow10_split (a b c : nat) :
  (a <= b)%nat -> (b <= c)%nat -> pow10 (c - a) = pow10 (b - a) * pow10 (c - b).
Proof. intros. rewrite <- pow10_add. f_equal. lia. Qed.

(** [rescale] upwards reaches the requested scale exactly when the mantissa
    scaled by the whole power of ten fits. *)
Lemma scale_up_scale (m : Z) (s k : nat) :
  fits m = true -> (snd (scale_up m s k) = (s + k)%nat <-> fits (m * pow10 k) = true).
Proof.
  revert m s. induction k as [|k IH]; intros m s Hm; simpl.
  - rewrite Z.mul_1_r, Hm. split; auto; lia.
  - destruct (fits (m * 10)) eqn:E.
    + replace (s + S k)%nat with (S s + k)%nat by lia.
      rewrite (IH (m * 10) (S s) E), pow10_S, Z.mul_assoc. reflexivity.
    + simpl. split; [lia|]. intros F. exfalso.
      rewrite pow10_S, Z.mul_assoc in F.
      apply fits_mul_pow10 in F. congruence.
Qed.

Lemma scale_up_shape (k : nat) :
  forall (m : Z) (s : nat), exists j, (j <= k)%nat
    /\ scale_up m s k = (m * pow10 j, (s + j)%nat)
    /\ (j = k \/ fits (m * pow10 j * 10) = false).
Proof.
  induction k as [|k IH]; intros m s.
  - exists 0%nat. simpl. rewrite Z.mul_1_r, Nat.add_0_r. auto.
  - simpl. destruct (fits (m * 10)) eqn:F.
    + destruct (IH (m * 10) (S s)) as [j [Hj [E Hs]]].
      exists (S j). rewrite E, pow10_S.
      replace (S s + j)%nat with (s + S j)%nat by lia.
      split; [lia|split; [f_equal; ring|]].
      destruct Hs as [->|Hs]; [left; reflexivity|right].
      rewrite <- Hs. f_equal. ring.
    + exists 0%nat. simpl. rewrite Z.mul_1_r, Nat.add_0_r. auto with arith.
Qed.

(** After [rescale d k] the scale is [k], or it is below [k] and scaling
    further up overflows. *)
Lemma rescale_reach (d : Decimal) (k : nat) :
  (k <= MAX_PRECISION)%nat ->
  scale (rescale d k) = k
  \/ ((scale (rescale d k) < k)%nat /\ mantissa (rescale d k) <> 0
      /\ fits (mantissa (rescale d k) * 10) = false).
Proof.
  intros Hk. unfold rescale. replace (Nat.min k MAX_PRECISION) with k by lia.
  destruct (Nat.eqb_spec (scale d) k) as [E|E]; [left; exact E|].
  destruct (Z.eqb_spec (mantissa d) 0) as [Z0|Z0]; [left; reflexivity|].
  destruct (Nat.ltb_spec k (scale d)); [left; reflexivity|].
  destruct (scale_up_shape (k - scale d) (mantissa d) (scale d)) as [j [Hj [Es Hs]]].
  rewrite Es. simpl.
  destruct (Nat.eq_dec j (k - scale d)) as [Ej|Ej]; [left; lia|right].
  destruct Hs as [Hs|Hs]; [contradiction|].
  pose proof (pow10_pos j).
  split; [lia | split; [nia | exact Hs]].
Qed.

Lemma round_half_even_exact (y : Z) (k : nat) :
  round_half_even (y * pow10 k) k = y.
Proof.
  unfold round_half_even. pose proof (pow10_pos k) as P.
  rewrite Z.abs_mul, (Z.abs_eq (pow10 k)) by lia.
  rewrite Z.div_mul, Z.mod_mul by lia.
  replace (pow10 k <? 2 * 0) with false by (symmetry; apply Z.ltb_ge; lia).
  replace (2 * 0 =? pow10 k) with false by (symmetry; apply Z.eqb_neq; lia).
  rewrite Z.sgn_mul, (Z.sgn_pos (pow10 k)) by lia.
  rewrite Z.mul_1_r, Z.mul_comm. apply Z.abs_sgn.
Qed.


(** Dropping digits from a multiple [x * 10^j] of a fitting [x] is exact:
    the search stops at some [k' <= j]. *)
Lemma reduce_from_exact (fuel : nat) :
  forall (x : Z) (j s k : nat),
  fits x = true -> (1 <= k)%nat -> (k <= j)%nat -> (j <= s)%nat -> (j - k < fuel)%nat ->
  exists k', (k' <= j)%nat
    /\ reduce_from (x * pow10 j) s k fuel = Some (mkDecimal (x * pow10 (j - k')) (s - k')).
Proof.
  induction fuel as [|f IH]; intros x j s k Hx Hk1 Hkj Hjs Hf; [lia|].
  simpl. replace (Nat.ltb s k) with false by (symmetry; apply Nat.ltb_ge; lia).
  replace (round_half_even (x * pow10 j) k) with (x * pow10 (j - k)).
  2:{ replace (x * pow10 j) with (x * pow10 (j - k) * pow10 k).
      - symmetry. apply round_half_even_exact.
      - rewrite <- Z.mul_assoc, <- pow10_add. f_equal. f_equal. lia. }
  destruct (fits (x * pow10 (j - k))) eqn:F.
  - exists k. split; [lia | reflexivity].
  - destruct (Nat.eq_dec k j) as [->|Hne].
    + rewrite Nat.sub_diag, Z.mul_1_r in F. congruence.
    + apply IH; auto; lia.
Qed.


(** Two nonzero operands whose exact sum is a multiple [x * 10^j] of a
    fitting [x]: [x * 10^(j - k')] at scale [s - k'] for some [k' <= j]. *)
Lemma add_aligned_multiple (d1 d2 : Decimal) (x : Z) (j s : nat) :
  exact_sum d1 d2 = (x * pow10 j, s) -> fits x = true -> (j <= s)%nat ->
  exists k', (k' <= j)%nat
    /\ add_aligned d1 d2 = Ret (mkDecimal (x * pow10 (j - k')) (s - k')).
Proof.
  intros E Hx Hjs. unfold add_aligned. rewrite E.
  destruct (fits (x * pow10 j)) eqn:F.
  - exists 0%nat. rewrite !Nat.sub_0_r. split; [lia | reflexivity].
  - destruct j as [|j'].
    + rewrite Z.mul_1_r in F. congruence.
    + destruct (reduce_from_exact s x (S j') s 1 Hx) as [k' [Hk' R]]; try lia.
      exists k'. rewrite R. split; [exact Hk' | reflexivity].
Qed.

(** ** Values at a common scale *)



Lemma exact_dec_at (d1 d2 : Decimal) :
  at_scale (exact_dec d1 d2) (Nat.max (scale d1) (scale d2)) = fst (exact_sum d1 d2).
Proof. unfold at_scale, exact_dec. simpl. rewrite Nat.sub_diag. apply Z.mul_1_r. Qed.

Lemma at_scale_lift (d : Decimal) (s0 s : nat) :
  (scale d <= s0)%nat -> (s0 <= s)%nat -> at_scale d s = at_scale d s0 * pow10 (s - s0).
Proof. intros. unfold at_scale. rewrite (pow10_split (scale d) s0 s) by assumption. ring. Qed.

Lemma at_scale_neg (d : Decimal) (s : nat) : at_scale (neg d) s = - at_scale d s.
Proof. unfold at_scale, neg. simpl. ring. Qed.

Lemma at_scale_zero (d : Decimal) (s : nat) : is_zero d = true -> at_scale d s = 0.
Proof. unfold is_zero, at_scale. intros H. apply Z.eqb_eq in H. rewrite H. reflexivity. Qed.

Lemma at_scale_sign (d : Decimal) (s : nat) :
  Z.compare (at_scale d s) 0 = Z.compare (mantissa d) 0.
Proof.
  unfold at_scale. pose proof (pow10_pos (s - scale d)).
  destruct (Z.compare_spec (mantissa d) 0); 
    [apply Z.compare_eq_iff | apply Z.compare_lt_iff | apply Z.compare_gt_iff]; nia.
Qed.


Lemma compare_mul_pos (n m p : Z) : 0 < p -> Z.compare (n * p) (m * p) = Z.compare n m.
Proof.
  intros P. destruct (Z.compare_spec n m) as [E|L|G].
  - subst. apply Z.compare_refl.
  - apply Z.compare_lt_iff. nia.
  - apply Z.compare_gt_iff. nia.
Qed.

(** The comparison of two decimals is that of their mantissas written at any
    common scale. *)
Lemma cmp_at_scale (a b : Decimal) (s : nat) :
  (scale a <= s)%nat -> (scale b <= s)%nat ->
  cmp a b = Z.compare (at_scale a s) (at_scale b s).
Proof.
  intros Ha Hb. unfold cmp, at_scale.
  pose proof (pow10_pos (scale a)) as Pa. pose proof (pow10_pos (scale b)) as Pb.
  rewrite <- (compare_mul_pos (mantissa a * pow10 (s - scale a))
               (mantissa b * pow10 (s - scale b)) (pow10 (scale a) * pow10 (scale b)))
    by nia.
  rewrite <- (compare_mul_pos (mantissa a * pow10 (scale b))
               (mantissa b * pow10 (scale a)) (pow10 s)) by apply pow10_pos.
  assert (Ea : pow10 s = pow10 (s - scale a) * pow10 (scale a))
    by (rewrite <- pow10_add; f_equal; lia).
  assert (Eb : pow10 s = pow10 (s - scale b) * pow10 (scale b))
    by (rewrite <- pow10_add; f_equal; lia).
  f_equal; [rewrite Ea | rewrite Eb]; ring.
Qed.

Lemma eqb_at_scale (a b : Decimal) (s : nat) :
  (scale a <= s)%nat -> (scale b <= s)%nat ->
  (Decimal.eqb a b = true <-> at_scale a s = at_scale b s).
Proof.
  intros Ha Hb. unfold Decimal.eqb. rewrite (cmp_at_scale a b s Ha Hb).
  destruct (Z.compare_spec (at_scale a s) (at_scale b s));
    split; intros; solve [discriminate | reflexivity | lia].
Qed.

Lemma decimal_eqb_refl (d : Decimal) : Decimal.eqb d d = true.
Proof. unfold Decimal.eqb, cmp. rewrite Z.compare_refl. reflexivity. Qed.

(** ** Addition *)

(** Whenever the exact sum is a multiple [x * 10^j] of a fitting [x], [+]
    returns a decimal of at most the larger scale whose value is the exact
    sum (with a zero operand, the other operand itself). *)
Lemma add_sum (d1 d2 : Decimal) (x : Z) (j : nat) :
  fst (exact_sum d1 d2) = x * pow10 j -> fits x = true ->
  (j <= Nat.max (scale d1) (scale d2))%nat ->
  exists r, add d1 d2 = Ret r /\ (scale r <= Nat.max (scale d1) (scale d2))%nat
    /\ forall s, (Nat.max (scale d1) (scale d2) <= s)%nat ->
       at_scale r s = at_scale d1 s + at_scale d2 s.
Proof.
  intros E Hx Hj. set (M := Nat.max (scale d1) (scale d2)) in *.
  unfold add. destruct (is_zero d1) eqn:Z1; [|destruct (is_zero d2) eqn:Z2].
  - exists d2. split; [reflexivity|]. split; [unfold M; lia|].
    intros s Hs. rewrite (at_scale_zero d1 s Z1). ring.
  - exists d1. split; [reflexivity|]. split; [unfold M; lia|].
    intros s Hs. rewrite (at_scale_zero d2 s Z2). ring.
  - assert (ES : exact_sum d1 d2 = (x * pow10 j, M)) by (rewrite <- E; reflexivity).
    destruct (add_aligned_multiple d1 d2 x j M ES Hx Hj) as [k' [Hk' A]].
    rewrite A. eexists; split; [reflexivity|]. cbn [scale]. split; [lia|].
    intros s Hs.
    rewrite (at_scale_lift d1 M s), (at_scale_lift d2 M s) by (unfold M in *; lia).
    rewrite <- Z.mul_add_distr_r.
    change (at_scale d1 M + at_scale d2 M) with (fst (exact_sum d1 d2)). rewrite E.
    unfold at_scale. cbn [mantissa scale].
    rewrite <- !Z.mul_assoc, <- !pow10_add. f_equal. f_equal. lia.
Qed.



End DecimalFacts.

Lemma currency_eqb_refl (c : CurrencyCode) : currency_eqb c c = true.
Proof. unfold currency_eqb. destruct (CurrencyCode_eq_dec c c); congruence. Qed.

Lemma currency_eqb_neq (c1 c2 : CurrencyCode) : c1 <> c2 -> currency_eqb c1 c2 = false.
Proof. unfold currency_eqb. destruct (CurrencyCode_eq_dec c1 c2); congruence. Qed.

Lemma currency_eqb_eq (c1 c2 : CurrencyCode) : currency_eqb c1 c2 = true <-> c1 = c2.
Proof. unfold currency_eqb. destruct (CurrencyCode_eq_dec c1 c2); split; congruence. Qed.

(** ** [Money] *)

Module MoneyFacts.
Import Decimal Money.

Lemma add_diff_currency (m n : Money) :
  currency m <> currency n -> Money.add m n = Ret (Err NotSameCurrencyError).
Proof. intros H. unfold Money.add. rewrite currency_eqb_neq by exact H. reflexivity. Qed.

Lemma add_same_currency (m n : Money) :
  currency m = currency n ->
  Money.add m n = (a <- Decimal.add (amount m) (amount n) ;; Ret (Ok (mkMoney a (currency m)))).
Proof. intros H. unfold Money.add. rewrite H, currency_eqb_refl. reflexivity. Qed.

Lemma add_same_currency_not_err (m n : Money) (e : MoneyError) :
  currency m = currency n -> Money.add m n <> Ret (Err e).
Proof.
  intros Hc. rewrite add_same_currency by exact Hc.
  destruct (Decimal.add (amount m) (amount n)); simpl; discriminate.
Qed.

Lemma add_err_iff (m n : Money) :
  (exists e, Money.add m n = Ret (Err e)) <-> currency m <> currency n.
Proof.
  destruct (CurrencyCode_eq_dec (currency m) (currency n)) as [Hc|Hc]; split.
  - intros [e He]. exfalso. exact (add_same_currency_not_err m n e Hc He).
  - intros H. contradiction.
  - intros _. exact Hc.
  - intros _. exists NotSameCurrencyError. apply add_diff_currency. exact Hc.
Qed.

(** [add] of one currency, when the exact sum is a multiple [x * 10^j] of a
    fitting [x]: a [Money] of that currency whose amount has the value of the
    exact sum, at a scale at most the larger one. *)
Lemma money_add_sum (m n : Money) (x : Z) (j : nat) :
  currency m = currency n ->
  fst (exact_sum (amount m) (amount n)) = x * pow10 j -> fits x = true ->
  (j <= Nat.max (scale (amount m)) (scale (amount n)))%nat ->
  exists r, Money.add m n = Ret (Ok r) /\ currency r = currency m
    /\ (scale (amount r) <= Nat.max (scale (amount m)) (scale (amount n)))%nat
    /\ forall s, (Nat.max (scale (amount m)) (scale (amount n)) <= s)%nat ->
       at_scale (amount r) s = at_scale (amount m) s + at_scale (amount n) s.
Proof.
  intros Hc E Hx Hj. rewrite add_same_currency by exact Hc.
  destruct (DecimalFacts.add_sum _ _ x j E Hx Hj) as [r [A [Hs Hv]]].
  rewrite A. exists (mkMoney r (currency m)). cbn [obind Money.amount Money.currency].
  split; [reflexivity | split; [reflexivity | split; assumption]].
Qed.

Lemma money_add_fits (m n : Money) :
  currency m = currency n -> fits (fst (exact_sum (amount m) (amount n))) = true ->
  exists r, Money.add m n = Ret (Ok r) /\ currency r = currency m
    /\ (scale (amount r) <= Nat.max (scale (amount m)) (scale (amount n)))%nat
    /\ forall s, (Nat.max (scale (amount m)) (scale (amount n)) <= s)%nat ->
       at_scale (amount r) s = at_scale (amount m) s + at_scale (amount n) s.
Proof.
  intros Hc F. apply (money_add_sum m n (fst (exact_sum (amount m) (amount n))) 0 Hc);
    [change (pow10 0) with 1; ring | exact F | lia].
Qed.

(** Subtracting [n] from a sum [r] of [m] and [n] gives back a [Money]
    equal to [m], whatever scale [r] has. *)
Lemma subtract_after_add (m n r : Money) :
  fits (mantissa (amount m)) = true -> currency n = currency m -> currency r = currency m ->
  (scale (amount r) <= Nat.max (scale (amount m)) (scale (amount n)))%nat ->
  at_scale (amount r) (Nat.max (scale (amount m)) (scale (amount n)))
  = at_scale (amount m) (Nat.max (scale (amount m)) (scale (amount n)))
    + at_scale (amount n) (Nat.max (scale (amount m)) (scale (amount n))) ->
  exists r', Money.subtract r n = Ret (Ok r') /\ Money.eqb r' m = true.
Proof.
  intros Hf Hn Hr Hs Hv.
  set (M := Nat.max (scale (amount m)) (scale (amount n))) in *.
  set (M' := Nat.max (scale (amount r)) (scale (amount n))).
  assert (Hm : (scale (amount m) <= M)%nat) by (unfold M; lia).
  assert (HM : (M' <= M)%nat) by (unfold M', M in *; lia).
  set (E := fst (exact_sum (amount r) (neg (amount n)))).
  assert (EE : E * pow10 (M - M') = at_scale (amount m) M).
  { change E with (at_scale (amount r) M' + at_scale (neg (amount n)) M').
    rewrite DecimalFacts.at_scale_neg, Z.mul_add_distr_r, Z.mul_opp_l.
    rewrite <- (DecimalFacts.at_scale_lift (amount r) M' M),
            <- (DecimalFacts.at_scale_lift (amount n) M' M) by (unfold M'; lia).
    rewrite Hv. ring. }
  assert (XJ : exists x j, E = x * pow10 j /\ fits x = true /\ (j <= M')%nat).
  { pose proof (DecimalFacts.pow10_pos (M - M')) as P1.
    destruct (Nat.le_gt_cases (scale (amount m)) M') as [Hle|Hgt].
    - exists (mantissa (amount m)), (M' - scale (amount m))%nat.
      split; [|split; [exact Hf | lia]].
      apply (Z.mul_reg_r _ _ (pow10 (M - M'))); [lia|].
      rewrite EE. unfold at_scale. rewrite <- Z.mul_assoc, <- DecimalFacts.pow10_add.
      f_equal. f_equal. lia.
    - exists E, 0%nat. split; [change (pow10 0) with 1; ring | split; [|lia]].
      assert (E' : E * pow10 (scale (amount m) - M') = mantissa (amount m)).
      { pose proof (DecimalFacts.pow10_pos (M - scale (amount m))) as P2.
        apply (Z.mul_reg_r _ _ (pow10 (M - scale (amount m)))); [lia|].
        rewrite <- Z.mul_assoc, <- DecimalFacts.pow10_add.
        replace (scale (amount m) - M' + (M - scale (amount m)))%nat with (M - M')%nat
          by lia.
        rewrite EE. reflexivity. }
      apply (DecimalFacts.fits_mul_pow10 _ (scale (amount m) - M')). rewrite E'. exact Hf. }
  destruct XJ as [x [j [Ex [Fx Hj]]]].
  unfold Money.subtract.
  destruct (money_add_sum r (negated n) x j) as [r' [A [Hc' [Hs' Hv']]]];
    [cbn [negated Money.currency]; congruence | exact Ex | exact Fx | exact Hj |].
  exists r'. split; [exact A|].
  unfold Money.eqb. rewrite andb_true_iff, currency_eqb_eq. split; [|congruence].
  apply (DecimalFacts.eqb_at_scale _ _ M); [|exact Hm|].
  { change (scale (amount (negated n))) with (scale (amount n)) in Hs'.
    unfold M' in HM. lia. }
  rewrite (Hv' M HM). cbn [negated Money.amount].
  rewrite DecimalFacts.at_scale_neg, Hv. ring.
Qed.

End MoneyFacts.

(** ** [BankAccount] *)

Module BankAccountFacts.
Import Money BankAccount.

Lemma tbind_ok {A E : Type} (x : outcome (result A E)) :
  tbind x (fun a => Ret (Ok a)) = x.
Proof. destruct x as [[a|e]|msg]; reflexivity. Qed.

End BankAccountFacts.

(** * The claims *)

Import Decimal Money BankAccount.

Lemma cmp_zero_r (d : Decimal) : Decimal.cmp d Decimal.zero = Z.compare (mantissa d) 0.
Proof. unfold Decimal.cmp. simpl. rewrite Z.mul_1_r. reflexivity. Qed.


(** C1 (counterexample): a JPY account holding 0 JPY can withdraw 1 JPY;
    the withdrawal succeeds and leaves a balance of -1 JPY, so withdrawing
    more than the balance does not fail. *)
Lemma withdraw_overdraw_succeeds :
  withdraw (BankAccount.new 1 1 (mkMoney Decimal.zero JPY)) (mkMoney (from_i32 1) JPY)
  = Ret (Ok (BankAccount.new 1 1 (mkMoney (mkDecimal (-1) 0) JPY)))
  /\ Decimal.ltb (mkDecimal (-1) 0) Decimal.zero = true.
Proof. split; reflexivity. Qed.

(** C1 (amended): [withdraw] does not compare the amount with the balance.
    It fails (with [NotSameCurrencyError]) exactly when the currencies
    differ.  For the same currency, when the exact difference fits in the
    96-bit mantissa, it succeeds, keeps the identifiers and the currency, and
    the new balance equals ([==]) balance minus amount, which is negative
    when the amount exceeds the balance.  Withdrawing the whole balance
    succeeds and leaves a zero balance. *)
Theorem withdraw_spec (acct : BankAccount) (a : Money) :
  ((exists e, withdraw acct a = Ret (Err e)) <-> currency (balance acct) <> currency a)
  /\ (currency (balance acct) <> currency a ->
      withdraw acct a = Ret (Err NotSameCurrencyError))
  /\ (currency (balance acct) = currency a ->
      fits (fst (exact_sum (amount (balance acct)) (neg (amount a)))) = true ->
      exists acct', withdraw acct a = Ret (Ok acct')
        /\ id acct' = id acct /\ user_account_id acct' = user_account_id acct
        /\ currency (balance acct') = currency (balance acct)
        /\ Decimal.eqb (amount (balance acct'))
             (exact_dec (amount (balance acct)) (neg (amount a))) = true
        /\ (Decimal.ltb (amount (balance acct)) (amount a) = true ->
            is_negative (balance acct') = true))
  /\ (exists acct', withdraw acct (balance acct) = Ret (Ok acct')
      /\ Decimal.is_zero (amount (balance acct')) = true
      /\ currency (balance acct') = currency (balance acct)).
Proof.
  split; [|split; [|split]].
  - transitivity (exists e, Money.add (balance acct) (negated a) = Ret (Err e));
      [|apply (MoneyFacts.add_err_iff (balance acct) (negated a))].
    unfold withdraw, Money.subtract.
    destruct (Money.add (balance acct) (negated a)) as [[b|e]|msg]; cbn [tbind obind];
      split; intros [e' H]; try discriminate; exists e; reflexivity.
  - intros H. unfold withdraw, Money.subtract.
    rewrite MoneyFacts.add_diff_currency by exact H. reflexivity.
  - intros Hc F.
    destruct (MoneyFacts.money_add_fits (balance acct) (negated a) Hc F)
      as [r [A [Hcr [Hs Hv]]]].
    set (M := Nat.max (scale (amount (balance acct))) (scale (amount a))) in *.
    assert (V : at_scale (amount r) M
                = at_scale (amount (balance acct)) M - at_scale (amount a) M).
    { rewrite (Hv M (Nat.le_refl _)). cbn [negated Money.amount].
      rewrite DecimalFacts.at_scale_neg. ring. }
    exists (mkBankAccount (id acct) (user_account_id acct) r).
    unfold withdraw, Money.subtract. rewrite A.
    split; [reflexivity|]. cbn [BankAccount.id BankAccount.user_account_id BankAccount.balance].
    split; [reflexivity | split; [reflexivity | split; [exact Hcr|]]].
    split.
    + apply (DecimalFacts.eqb_at_scale _ _ M); [exact Hs | apply Nat.le_refl |].
      rewrite V. unfold Z.sub. rewrite <- DecimalFacts.at_scale_neg. symmetry.
      exact (DecimalFacts.exact_dec_at (amount (balance acct)) (neg (amount a))).
    + intros Lt. unfold is_negative, Decimal.ltb. rewrite cmp_zero_r.
      unfold Decimal.ltb in Lt.
      rewrite (DecimalFacts.cmp_at_scale _ _ M) in Lt by (unfold M; lia).
      rewrite <- (DecimalFacts.at_scale_sign _ M), V.
      destruct (Z.compare_spec (at_scale (amount (balance acct)) M) (at_scale (amount a) M));
        try discriminate.
      destruct (Z.compare_spec (at_scale (amount (balance acct)) M - at_scale (amount a) M) 0);
        [lia | reflexivity | lia].
  - assert (F0 : fits (fst (exact_sum (amount (balance acct))
                                      (amount (negated (balance acct))))) = true).
    { cbn [negated Money.amount]. rewrite DecimalFacts.exact_sum_neg_self. reflexivity. }
    destruct (MoneyFacts.money_add_fits (balance acct) (negated (balance acct)) eq_refl F0)
      as [r [A [Hcr [Hs Hv]]]].
    exists (mkBankAccount (id acct) (user_account_id acct) r).
    unfold withdraw, Money.subtract. rewrite A.
    split; [reflexivity|]. cbn [BankAccount.balance]. split; [|exact Hcr].
    pose proof (Hv _ (Nat.le_refl _)) as V. cbn [negated Money.amount] in V.
    rewrite DecimalFacts.at_scale_neg, Z.add_opp_diag_r in V.
    pose proof (DecimalFacts.at_scale_sign (amount r)
                  (Nat.max (scale (amount (balance acct)))
                           (scale (neg (amount (balance acct)))))) as Sg.
    rewrite V in Sg. unfold Decimal.is_zero. apply Z.eqb_eq.
    destruct (Z.compare_spec (mantissa (amount r)) 0); [assumption | discriminate | discriminate].
Qed.

(** Witness of C1: a 5 JPY account withdrawing 3 USD, and a 0.00 USD
    account withdrawing 5 USD (the balance goes below zero). *)
Lemma withdraw_spec_witness :
  withdraw (BankAccount.new 1 2 (mkMoney (from_i32 5) JPY)) (mkMoney (from_i32 3) USD)
    = Ret (Err NotSameCurrencyError)
  /\ exists acct',
       withdraw (BankAccount.new 1 2 (mkMoney (mkDecimal 0 2) USD)) (mkMoney (from_i32 5) USD)
         = Ret (Ok acct')
       /\ id acct' = 1%N /\ is_negative (balance acct') = true.
Proof.
  split.
  - apply (proj1 (proj2 (withdraw_spec (BankAccount.new 1 2 (mkMoney (from_i32 5) JPY))
                                       (mkMoney (from_i32 3) USD)))).
    discriminate.
  - destruct (proj1 (proj2 (proj2 (withdraw_spec
                (BankAccount.new 1 2 (mkMoney (mkDecimal 0 2) USD))
                (mkMoney (from_i32 5) USD)))) eq_refl eq_refl)
      as [acct' [W [I [_ [_ [_ N]]]]]].
    exists acct'. split; [exact W | split; [exact I | apply N; reflexivity]].
Defined.

(** C2: the scenario of [test_dci]: both accounts start at 0 JPY, the first
    receives 1000 JPY, then 10 JPY are transferred through the transfer
    context; the sender ends at 990 JPY and the receiver at 10 JPY. *)
Theorem test_dci_balances :
  exists from' to',
    test_dci = Ret (Ok (from', to'))
    /\ Money.eqb (balance from') (mkMoney (from_i32 990) JPY) = true
    /\ Money.eqb (balance to') (mkMoney (from_i32 10) JPY) = true.
Proof.
  do 2 eexists. split; [reflexivity|]. split; reflexivity.
Qed.

(** C5 (counterexample): dividing by zero is no [MoneyError]: [divided_by]
    panics, and [MoneyError] has no variant other than
    [NotSameCurrencyError]. *)
Lemma divided_by_zero_no_error_variant :
  divided_by (fun _ _ => Ret Decimal.zero) (mkMoney (from_i32 5) JPY) Decimal.zero
    = Panic "Division by zero"
  /\ ~ (exists e : MoneyError, e <> NotSameCurrencyError).
Proof.
  split; [reflexivity|]. intros [e He]. destruct e. apply He. reflexivity.
Qed.

(** C5 (amended): [divided_by] returns a [Money] with no error channel;
    whatever the crate does for nonzero divisors, a zero divisor (of any
    scale) makes it panic with "Division by zero", and the only [MoneyError]
    is [NotSameCurrencyError]. *)
Theorem divided_by_zero_panics
  (div_nonzero : Decimal -> Decimal -> outcome Decimal) (m : Money) (d : Decimal) :
  Decimal.is_zero d = true ->
  divided_by div_nonzero m d = Panic "Division by zero"
  /\ (forall e : MoneyError, e = NotSameCurrencyError).
Proof.
  intros Hz. split.
  - unfold divided_by, Decimal.div. rewrite Hz. reflexivity.
  - intros []. reflexivity.
Qed.

Lemma divided_by_zero_panics_witness :
  Decimal.is_zero (mkDecimal 0 2) = true
  /\ divided_by (fun _ _ => Ret Decimal.zero) (mkMoney (from_i32 5) USD) (mkDecimal 0 2)
     = Panic "Division by zero".
Proof.
  split; [reflexivity|].
  apply (divided_by_zero_panics (fun _ _ => Ret Decimal.zero) (mkMoney (from_i32 5) USD)
                                (mkDecimal 0 2)).
  reflexivity.
Defined.

(** C6: [partial_cmp] of two [Money] values of different currencies is
    [None] (a total function: it cannot panic); for one currency it is the
    order of the amounts. *)
Theorem partial_cmp_spec (m n : Money) :
  (currency m <> currency n -> partial_cmp m n = None)
  /\ (currency m = currency n -> partial_cmp m n = Some (Decimal.cmp (amount m) (amount n))).
Proof.
  unfold partial_cmp. split.
  - intros H. rewrite currency_eqb_neq by exact H. reflexivity.
  - intros H. rewrite H, currency_eqb_refl. simpl.
    unfold gtb, ltb. destruct (Decimal.cmp (amount m) (amount n)); reflexivity.
Qed.

Lemma partial_cmp_spec_witness :
  partial_cmp (mkMoney (from_i32 1) USD) (mkMoney (from_i32 1) JPY) = None
  /\ partial_cmp (mkMoney (mkDecimal 150 2) USD) (mkMoney (from_i32 1) USD)
     = Some (Decimal.cmp (mkDecimal 150 2) (from_i32 1)).
Proof.
  split.
  - apply (proj1 (partial_cmp_spec (mkMoney (from_i32 1) USD) (mkMoney (from_i32 1) JPY))).
    discriminate.
  - apply (proj2 (partial_cmp_spec (mkMoney (mkDecimal 150 2) USD) (mkMoney (from_i32 1) USD))).
    reflexivity.
Defined.

(** C9: [on_receive] of a [BankAccount] does not read the sender's state:
    its result is the same for any two sender states, and it is the result
    of [deposit]. *)
Theorem on_receive_ignores_sender (r : BankAccount) (money : Money) (f1 f2 : BankAccount) :
  on_receive r money f1 = on_receive r money f2
  /\ on_receive r money f1 = deposit r money.
Proof.
  unfold on_receive, BankAccount_ReceiveRole.
  rewrite BankAccountFacts.tbind_ok. split; reflexivity.
Qed.

(** C10: a successful [deposit] or [withdraw] keeps the account and user
    identifiers; only the balance is replaced. *)
Theorem deposit_withdraw_frame (acct acct' : BankAccount) (m : Money) :
  (deposit acct m = Ret (Ok acct') ->
   acct' = mkBankAccount (id acct) (user_account_id acct) (balance acct'))
  /\ (withdraw acct m = Ret (Ok acct') ->
      acct' = mkBankAccount (id acct) (user_account_id acct) (balance acct')).
Proof.
  unfold deposit, withdraw, tbind, obind. split.
  - destruct (Money.add (balance acct) m) as [[b|e]|msg]; simpl; intros H;
      inversion H; reflexivity.
  - destruct (Money.subtract (balance acct) m) as [[b|e]|msg]; simpl; intros H;
      inversion H; reflexivity.
Qed.

Lemma deposit_withdraw_frame_witness :
  BankAccount.new 7 3 (mkMoney (from_i32 15) JPY)
  = mkBankAccount 7 3 (balance (BankAccount.new 7 3 (mkMoney (from_i32 15) JPY))).
Proof.
  apply (proj1 (deposit_withdraw_frame (BankAccount.new 7 3 (mkMoney (from_i32 10) JPY))
                                       (BankAccount.new 7 3 (mkMoney (from_i32 15) JPY))
                                       (mkMoney (from_i32 5) JPY))).
  reflexivity.
Defined.




(** C4 (counterexample): [Money::new(Decimal::MAX, USD)] cannot reach the
    two fractional digits of USD: the product by ten overflows, so the
    amount keeps scale 0. *)
Lemma new_max_usd_keeps_scale :
  wf Decimal.MAX
  /\ exists m, Money.new Decimal.MAX USD = Ret m /\ scale (amount m) <> 2%nat.
Proof.
  split; [split; [reflexivity | unfold Decimal.MAX, MAX_PRECISION; simpl; lia]|].
  eexists. split; [reflexivity|]. simpl. discriminate.
Qed.

(** C4 (amended): for a currency with a digit count [d], [new] returns a
    [Money] of that currency whose amount has scale exactly [d] if and only
    if the given amount already has at least [d] digits or its mantissa
    scaled to [d] digits fits in 96 bits; otherwise the rescaling stops
    early and the scale stays below [d]. *)
Theorem new_scale_spec (a : Decimal) (c : CurrencyCode) (d : nat) :
  wf a -> digit c = Some d ->
  exists m, Money.new a c = Ret m /\ currency m = c
    /\ (scale (amount m) = d
        <-> ((d <= scale a)%nat \/ fits (mantissa a * pow10 (d - scale a)) = true))
    /\ (~ ((d <= scale a)%nat \/ fits (mantissa a * pow10 (d - scale a)) = true) ->
        (scale (amount m) < d)%nat).
Proof.
  intros [Hf _] Hd. exists (mkMoney (rescale a d) c).
  unfold Money.new. rewrite Hd. split; [reflexivity | split; [reflexivity|]]. simpl.
  assert (Hd28 : (d <= MAX_PRECISION)%nat)
    by (unfold MAX_PRECISION; destruct c; simpl in Hd; inversion Hd; lia).
  assert (I : scale (rescale a d) = d
              <-> ((d <= scale a)%nat \/ fits (mantissa a * pow10 (d - scale a)) = true)).
  { unfold rescale. replace (Nat.min d MAX_PRECISION) with d by lia.
    destruct (Nat.eqb_spec (scale a) d) as [Heq|Hne].
    - split; [intros; left; lia | intros; exact Heq].
    - destruct (Z.eqb_spec (mantissa a) 0) as [Hz|Hnz].
      + simpl. split; [intros _; right; rewrite Hz; reflexivity | reflexivity].
      + destruct (Nat.ltb_spec d (scale a)) as [Hlt|Hge].
        * simpl. split; [intros; left; lia | reflexivity].
        * pose proof (DecimalFacts.scale_up_scale (mantissa a) (scale a) (d - scale a) Hf)
            as U.
          destruct (scale_up (mantissa a) (scale a) (d - scale a)) as [m' s'].
          simpl in U |- *. replace (scale a + (d - scale a))%nat with d in U by lia.
          rewrite U. split; [intros H; right; exact H | intros [H|H]; [lia | exact H]]. }
  split; [exact I|].
  intros Hn. destruct (DecimalFacts.rescale_reach a d Hd28) as [E|[Lt _]].
  - exfalso. apply Hn, I, E.
  - exact Lt.
Qed.

(** Witness of C4: 12.345 in USD reaches two digits; the largest decimal in
    USD stays below two. *)
Lemma new_scale_spec_witness :
  (exists m, Money.new (mkDecimal 12345 3) USD = Ret m /\ scale (amount m) = 2%nat)
  /\ (exists m, Money.new Decimal.MAX USD = Ret m /\ (scale (amount m) < 2)%nat).
Proof.
  split.
  - destruct (new_scale_spec (mkDecimal 12345 3) USD 2%nat) as [m [N [_ [I _]]]];
      [split; [reflexivity | unfold MAX_PRECISION; simpl; lia] | reflexivity |].
    exists m. split; [exact N | apply I; left; simpl; lia].
  - destruct (new_scale_spec Decimal.MAX USD 2%nat) as [m [N [_ [_ L]]]];
      [split; [reflexivity | unfold Decimal.MAX, MAX_PRECISION; simpl; lia] | reflexivity |].
    exists m. split; [exact N | apply L].
    intros [H|H]; [unfold Decimal.MAX in H; simpl in H; lia | vm_compute in H; discriminate H].
Defined.

(** C7 (counterexample): with [m] = the largest decimal in JPY and [n] = 1
    JPY, [add m n] already panics, so [subtract (add m n) n] never returns
    [m]. *)
Lemma add_subtract_overflow :
  wf Decimal.MAX /\ wf (from_i32 1)
  /\ (r <-? Money.add (mkMoney Decimal.MAX JPY) (mkMoney (from_i32 1) JPY) ;;
      Money.subtract r (mkMoney (from_i32 1) JPY))
     = Panic "Addition overflowed".
Proof.
  split; [split; [reflexivity | unfold Decimal.MAX, MAX_PRECISION; simpl; lia]|].
  split; [split; [reflexivity | unfold MAX_PRECISION; simpl; lia]|].
  reflexivity.
Qed.

(** C7 (amended): [subtract m n] is [add m (negated n)], so it fails (with
    an [Err]) exactly when [add m n] does, i.e. on a currency mismatch; and
    for [m], [n] of one currency whose exact sum fits in 96 bits,
    [subtract (add m n) n] succeeds and is equal ([==]) to [m]. *)
Theorem add_subtract_inverse (m n : Money) :
  Money.subtract m n = Money.add m (negated n)
  /\ ((exists e, Money.subtract m n = Ret (Err e))
      <-> (exists e, Money.add m n = Ret (Err e)))
  /\ (wf (amount m) -> currency m = currency n ->
      fits (fst (exact_sum (amount m) (amount n))) = true ->
      exists r r', Money.add m n = Ret (Ok r) /\ Money.subtract r n = Ret (Ok r')
                   /\ Money.eqb r' m = true).
Proof.
  split; [reflexivity|]. split.
  - unfold Money.subtract. rewrite !MoneyFacts.add_err_iff. simpl. tauto.
  - intros [Hf _] Hc Hs.
    destruct (MoneyFacts.money_add_fits m n Hc Hs) as [r [A [Cr [Sr Vr]]]].
    destruct (MoneyFacts.subtract_after_add m n r Hf (eq_sym Hc) Cr Sr (Vr _ (Nat.le_refl _)))
      as [r' [Sub Eq]].
    exists r, r'. split; [exact A | split; [exact Sub | exact Eq]].
Qed.

Lemma add_subtract_inverse_witness :
  exists r r', Money.add (mkMoney (mkDecimal 150 2) USD) (mkMoney (from_i32 2) USD) = Ret (Ok r)
    /\ Money.subtract r (mkMoney (from_i32 2) USD) = Ret (Ok r')
    /\ Money.eqb r' (mkMoney (mkDecimal 150 2) USD) = true.
Proof.
  apply (proj2 (proj2 (add_subtract_inverse (mkMoney (mkDecimal 150 2) USD)
                                             (mkMoney (from_i32 2) USD)))).
  - split; [reflexivity | unfold MAX_PRECISION; simpl; lia].
  - reflexivity.
  - reflexivity.
Defined.




(** * Further properties of the code *)

(** The operator forms [m + n] and [m - n] panic on a currency mismatch, and
    otherwise return exactly what [add] and [subtract] return. *)
Theorem op_add_sub_spec (m n : Money) :
  (currency m <> currency n ->
   op_add m n = Panic "NotSameCurrencyError" /\ op_sub m n = Panic "NotSameCurrencyError")
  /\ (forall r, op_add m n = Ret r <-> Money.add m n = Ret (Ok r))
  /\ (forall r, op_sub m n = Ret r <-> Money.subtract m n = Ret (Ok r)).
Proof.
  split; [|split].
  - intros H. unfold op_add, op_sub, Money.subtract.
    rewrite !MoneyFacts.add_diff_currency by (simpl; exact H). split; reflexivity.
  - intros r. unfold op_add, unwrap_money.
    destruct (Money.add m n) as [[v|[]]|msg]; simpl; split; congruence.
  - intros r. unfold op_sub, unwrap_money.
    destruct (Money.subtract m n) as [[v|[]]|msg]; simpl; split; congruence.
Qed.

Lemma op_add_sub_spec_witness :
  op_add (mkMoney (from_i32 5) USD) (mkMoney (from_i32 5) JPY) = Panic "NotSameCurrencyError"
  /\ op_sub (mkMoney (from_i32 5) USD) (mkMoney (from_i32 5) JPY) = Panic "NotSameCurrencyError".
Proof.
  apply (proj1 (op_add_sub_spec (mkMoney (from_i32 5) USD) (mkMoney (from_i32 5) JPY))).
  discriminate.
Defined.

(** [negated] is an involution, keeps the currency, and swaps the signs. *)
Theorem negated_spec (m : Money) :
  negated (negated m) = m
  /\ currency (negated m) = currency m
  /\ is_positive (negated m) = is_negative m
  /\ is_negative (negated m) = is_positive m
  /\ is_zero (negated m) = is_zero m.
Proof.
  destruct m as [[x s] c].
  unfold negated, is_positive, is_negative, is_zero, gtb, ltb, Decimal.is_zero.
  rewrite !cmp_zero_r. unfold neg. simpl. rewrite Z.opp_involutive.
  repeat split; destruct x; reflexivity.
Qed.

(** Exactly one of [is_positive], [is_negative], [is_zero] holds, and they
    follow the sign of the mantissa, whatever the scale. *)
Theorem sign_trichotomy (m : Money) :
  (is_positive m = true <-> 0 < mantissa (amount m))
  /\ (is_negative m = true <-> mantissa (amount m) < 0)
  /\ (is_zero m = true <-> mantissa (amount m) = 0)
  /\ (if is_zero m then is_positive m = false /\ is_negative m = false
      else xorb (is_positive m) (is_negative m) = true).
Proof.
  destruct m as [[x s] c].
  unfold is_positive, is_negative, is_zero, gtb, ltb, Decimal.is_zero.
  rewrite !cmp_zero_r. simpl.
  destruct x; simpl; repeat split; try reflexivity; try discriminate; try lia.
Qed.

(** [abs] keeps the currency and the scale, is never negative, is idempotent
    and forgets a negation. *)
Theorem abs_spec (m : Money) :
  currency (Money.abs m) = currency m
  /\ scale (amount (Money.abs m)) = scale (amount m)
  /\ is_negative (Money.abs m) = false
  /\ Money.abs (Money.abs m) = Money.abs m
  /\ Money.abs (negated m) = Money.abs m.
Proof.
  destruct m as [[x s] c].
  unfold is_negative, ltb. rewrite cmp_zero_r.
  unfold Money.abs, Decimal.abs, negated, neg. simpl.
  rewrite Z.abs_idemp, Z.abs_opp.
  repeat split; destruct x; reflexivity.
Qed.

(** [Money::zero(c)] for a currency with [d] digits is a zero of that
    currency with scale [d]; for a currency without digits it panics. *)
Theorem zero_spec (c : CurrencyCode) :
  (forall d, digit c = Some d ->
   exists z, Money.zero c = Ret z /\ is_zero z = true /\ currency z = c
             /\ scale (amount z) = d)
  /\ (digit c = None -> exists msg, Money.zero c = Panic msg).
Proof.
  unfold Money.zero, Money.new. split.
  - intros d Hd. rewrite Hd. eexists; split; [reflexivity|].
    assert (d <= MAX_PRECISION)%nat
      by (unfold MAX_PRECISION; destruct c; simpl in Hd; inversion Hd; lia).
    unfold rescale, is_zero, Decimal.is_zero. simpl.
    replace (Nat.min d MAX_PRECISION) with d by lia.
    destruct d; simpl; auto.
  - intros H. rewrite H. eexists. reflexivity.
Qed.

Lemma zero_spec_witness :
  exists z, Money.zero USD = Ret z /\ is_zero z = true /\ currency z = USD
            /\ scale (amount z) = 2%nat.
Proof. apply (proj1 (zero_spec USD) 2%nat). reflexivity. Defined.

(** [==] on [Money] is an equivalence: reflexive, symmetric, transitive
    (amounts compared by value, so [1.0 USD == 1.00 USD]). *)
Theorem money_eqb_equivalence (m n p : Money) :
  Money.eqb m m = true
  /\ Money.eqb m n = Money.eqb n m
  /\ (Money.eqb m n = true -> Money.eqb n p = true -> Money.eqb m p = true).
Proof.
  destruct m as [[xm sm] cm], n as [[xn sn] cn], p as [[xp sp] cp].
  unfold Money.eqb, Decimal.eqb, cmp. simpl.
  pose proof (DecimalFacts.pow10_pos sm) as Pm. pose proof (DecimalFacts.pow10_pos sn) as Pn.
  pose proof (DecimalFacts.pow10_pos sp) as Pp.
  split; [|split].
  - rewrite Z.compare_refl, currency_eqb_refl. reflexivity.
  - f_equal.
    + destruct (Z.compare_spec (xm * pow10 sn) (xn * pow10 sm)),
               (Z.compare_spec (xn * pow10 sm) (xm * pow10 sn)); auto; lia.
    + unfold currency_eqb.
      destruct (CurrencyCode_eq_dec cm cn), (CurrencyCode_eq_dec cn cm); congruence.
  - rewrite !andb_true_iff, !currency_eqb_eq.
    intros [B1 C1] [B2 C2]. split; [|congruence].
    destruct (Z.compare_spec (xm * pow10 sn) (xn * pow10 sm)) as [H2| |]; try discriminate.
    destruct (Z.compare_spec (xn * pow10 sp) (xp * pow10 sn)) as [H3| |]; try discriminate.
    assert (E : xm * pow10 sp * pow10 sn = xp * pow10 sm * pow10 sn).
    { transitivity (xm * pow10 sn * pow10 sp); [ring|].
      rewrite H2. transitivity (xn * pow10 sp * pow10 sm); [| rewrite H3; ring]. ring. }
    apply Z.mul_reg_r in E; [|lia]. rewrite E, Z.compare_refl. reflexivity.
Qed.

Lemma money_eqb_equivalence_witness :
  Money.eqb (mkMoney (mkDecimal 10 1) USD) (mkMoney (mkDecimal 100 2) USD) = true.
Proof.
  apply (proj2 (proj2 (money_eqb_equivalence (mkMoney (mkDecimal 10 1) USD)
                                              (mkMoney (from_i32 1) USD)
                                              (mkMoney (mkDecimal 100 2) USD))));
    reflexivity.
Defined.

(** [partial_cmp] is antisymmetric (swapping the operands reverses the
    answer) and agrees with [==]: it answers [Equal] exactly on equal values. *)
Theorem partial_cmp_antisym_eq (m n : Money) :
  partial_cmp n m = option_map CompOpp (partial_cmp m n)
  /\ (partial_cmp m n = Some Eq <-> Money.eqb m n = true).
Proof.
  destruct m as [[xm sm] cm], n as [[xn sn] cn].
  unfold partial_cmp, Money.eqb, gtb, ltb, Decimal.eqb, cmp. simpl.
  unfold currency_eqb.
  destruct (CurrencyCode_eq_dec cn cm), (CurrencyCode_eq_dec cm cn); try congruence;
    simpl.
  - rewrite andb_true_r.
    remember (xm * pow10 sn) as a. remember (xn * pow10 sm) as b.
    rewrite (Z.compare_antisym b a).
    destruct (b ?= a); simpl;
      (split; [reflexivity | split; intros H; try reflexivity; discriminate]).
  - split; [reflexivity|]. rewrite andb_false_r. split; discriminate.
Qed.

Lemma rescale_idem (d : Decimal) (k : nat) :
  (k <= MAX_PRECISION)%nat -> rescale (rescale d k) k = rescale d k.
Proof.
  intros Hk. destruct (DecimalFacts.rescale_reach d k Hk) as [E|[Lt [Nz F]]];
    remember (rescale d k) as r; clear Heqr; destruct r as [x s]; simpl in *;
    unfold rescale; simpl; replace (Nat.min k MAX_PRECISION) with k by lia.
  - subst s. rewrite Nat.eqb_refl. reflexivity.
  - replace (Nat.eqb s k) with false by (symmetry; apply Nat.eqb_neq; lia).
    replace (x =? 0) with false by (symmetry; apply Z.eqb_neq; exact Nz).
    replace (Nat.ltb k s) with false by (symmetry; apply Nat.ltb_ge; lia).
    destruct (k - s)%nat as [|k'] eqn:K; [lia|]. simpl. rewrite F. reflexivity.
Qed.

(** [Money::from((n, c))] for an integer [n] (the [from_numeric_impl!]
    conversions) is [Money::new(Decimal::from(n), c)]: rescaling before
    [new] changes nothing, even when the scale cannot be reached. *)
Theorem from_int_is_new (n : Z) (c : CurrencyCode) (d : nat) :
  digit c = Some d -> from_int n c = Money.new (mkDecimal n 0) c.
Proof.
  intros Hd. unfold from_int, Money.new. rewrite Hd.
  assert (d <= MAX_PRECISION)%nat
    by (unfold MAX_PRECISION; destruct c; simpl in Hd; inversion Hd; lia).
  rewrite rescale_idem by exact H. reflexivity.
Qed.

Lemma from_int_is_new_witness :
  from_int 7 USD = Money.new (mkDecimal 7 0) USD
  /\ from_int 7 USD = Ret (mkMoney (mkDecimal 700 2) USD).
Proof.
  split; [apply (from_int_is_new 7 USD 2%nat); reflexivity | reflexivity].
Defined.

(** [Money::new] never changes the value of an amount that has at most the
    currency's digit count of fractional digits: it only appends zeros (as
    far as 96 bits allow). *)
Theorem new_preserves_value (a : Decimal) (c : CurrencyCode) (d : nat) :
  digit c = Some d -> (scale a <= d)%nat ->
  exists m, Money.new a c = Ret m /\ currency m = c /\ Decimal.eqb (amount m) a = true.
Proof.
  intros Hd Hs. unfold Money.new. rewrite Hd. eexists.
  split; [reflexivity|split; [reflexivity|]]. simpl.
  assert (Hk : (d <= MAX_PRECISION)%nat)
    by (unfold MAX_PRECISION; destruct c; simpl in Hd; inversion Hd; lia).
  unfold rescale. replace (Nat.min d MAX_PRECISION) with d by lia.
  destruct (Nat.eqb_spec (scale a) d); [apply DecimalFacts.decimal_eqb_refl|].
  destruct (Z.eqb_spec (mantissa a) 0) as [Z0|Z0].
  - unfold Decimal.eqb, cmp. simpl. rewrite Z0. reflexivity.
  - destruct (Nat.ltb_spec d (scale a)); [lia|].
    destruct (DecimalFacts.scale_up_shape (d - scale a) (mantissa a) (scale a)) as [j [_ [Es _]]].
    rewrite Es. unfold Decimal.eqb, cmp. simpl.
    rewrite DecimalFacts.pow10_add, Z.mul_comm with (n := pow10 (scale a)),
            Z.mul_assoc, Z.compare_refl.
    reflexivity.
Qed.

Lemma new_preserves_value_witness :
  exists m, Money.new (mkDecimal 15 1) USD = Ret m /\ currency m = USD
            /\ Decimal.eqb (amount m) (mkDecimal 15 1) = true.
Proof.
  apply (new_preserves_value (mkDecimal 15 1) USD 2%nat); [reflexivity | simpl; lia].
Defined.

(** A transfer between accounts of the money's currency, when neither sum
    overflows, succeeds and keeps both accounts' identifiers and currency.
    Written at the largest scale involved, the sender's balance goes down
    and the receiver's goes up by exactly the amount, so their total is
    conserved. *)
Theorem transfer_conserves (f t : BankAccount) (money : Money) :
  currency (balance f) = currency money -> currency (balance t) = currency money ->
  fits (fst (exact_sum (amount (balance f)) (neg (amount money)))) = true ->
  fits (fst (exact_sum (amount (balance t)) (amount money))) = true ->
  let S := common_scale3 (amount (balance f)) (amount (balance t)) (amount money) in
  exists f' t',
    transfer (mkTransferContext f t) money = Ret (Ok (f', t'))
    /\ id f' = id f /\ user_account_id f' = user_account_id f
    /\ id t' = id t /\ user_account_id t' = user_account_id t
    /\ currency (balance f') = currency money /\ currency (balance t') = currency money
    /\ (scale (amount (balance f')) <= S)%nat /\ (scale (amount (balance t')) <= S)%nat
    /\ at_scale (amount (balance f')) S
       = at_scale (amount (balance f)) S - at_scale (amount money) S
    /\ at_scale (amount (balance t')) S
       = at_scale (amount (balance t)) S + at_scale (amount money) S
    /\ at_scale (amount (balance f')) S + at_scale (amount (balance t')) S
       = at_scale (amount (balance f)) S + at_scale (amount (balance t)) S.
Proof.
  intros Hf Ht Ff Ft S.
  assert (Sf : (scale (amount (balance f)) <= S)%nat) by (unfold S, common_scale3; lia).
  assert (St : (scale (amount (balance t)) <= S)%nat) by (unfold S, common_scale3; lia).
  assert (Sa : (scale (amount money) <= S)%nat) by (unfold S, common_scale3; lia).
  destruct (MoneyFacts.money_add_fits (balance f) (negated money) Hf Ff)
    as [bf [Af [Cf [Bf Vf]]]].
  destruct (MoneyFacts.money_add_fits (balance t) money Ht Ft) as [bt [At [Ct [Bt Vt]]]].
  change (scale (amount (negated money))) with (scale (amount money)) in Bf, Vf.
  assert (Df : at_scale (amount bf) S
               = at_scale (amount (balance f)) S - at_scale (amount money) S).
  { rewrite (Vf S) by lia. cbn [negated Money.amount].
    rewrite DecimalFacts.at_scale_neg. ring. }
  assert (Dt : at_scale (amount bt) S
               = at_scale (amount (balance t)) S + at_scale (amount money) S).
  { rewrite (Vt S) by lia. reflexivity. }
  exists (mkBankAccount (id f) (user_account_id f) bf),
         (mkBankAccount (id t) (user_account_id t) bt).
  split.
  - unfold transfer, send, BankAccount_SenderRole, withdraw, Money.subtract.
    cbn [from to]. rewrite Af. cbn [tbind obind].
    unfold on_receive, BankAccount_ReceiveRole, deposit. rewrite At. reflexivity.
  - cbn [BankAccount.id BankAccount.user_account_id BankAccount.balance].
    do 4 (split; [reflexivity|]).
    split; [congruence|]. split; [congruence|].
    split; [lia|]. split; [lia|].
    split; [exact Df|]. split; [exact Dt|].
    rewrite Df, Dt. ring.
Qed.

(** Witness: 10.00 USD to an account holding 0.00 USD, sending 5 USD; the
    receiver's balance is the 5 USD itself (scale 0). *)
Lemma transfer_conserves_witness :
  exists f' t',
    transfer (mkTransferContext (BankAccount.new 1 1 (mkMoney (mkDecimal 1000 2) USD))
                                (BankAccount.new 2 1 (mkMoney (mkDecimal 0 2) USD)))
             (mkMoney (from_i32 5) USD) = Ret (Ok (f', t'))
    /\ at_scale (amount (balance f')) 2 = 500 /\ at_scale (amount (balance t')) 2 = 500.
Proof.
  pose proof (transfer_conserves (BankAccount.new 1 1 (mkMoney (mkDecimal 1000 2) USD))
                                 (BankAccount.new 2 1 (mkMoney (mkDecimal 0 2) USD))
                                 (mkMoney (from_i32 5) USD)
                                 eq_refl eq_refl eq_refl eq_refl) as H.
  hnf in H. destruct H as [f' [t' [Tr [_ [_ [_ [_ [_ [_ [_ [_ [Df [Dt _]]]]]]]]]]]]].
  exists f', t'. split; [exact Tr | split; [exact Df | exact Dt]].
Defined.

(** A transfer fails with [NotSameCurrencyError] when the sender's currency
    differs from the money's, and also when the sender can be debited but
    the receiver's currency differs: the debit is then not returned. *)
Theorem transfer_currency_mismatch (f t : BankAccount) (money : Money) :
  (currency (balance f) <> currency money ->
   transfer (mkTransferContext f t) money = Ret (Err NotSameCurrencyError))
  /\ (currency (balance f) = currency money ->
      fits (fst (exact_sum (amount (balance f)) (neg (amount money)))) = true ->
      currency (balance t) <> currency money ->
      transfer (mkTransferContext f t) money = Ret (Err NotSameCurrencyError)).
Proof.
  unfold transfer, send, BankAccount_SenderRole, withdraw, Money.subtract.
  cbn [from to]. split.
  - intros H. rewrite MoneyFacts.add_diff_currency by (simpl; exact H). reflexivity.
  - intros Hf Ff Ht.
    destruct (MoneyFacts.money_add_fits (balance f) (negated money) Hf Ff) as [bf [Af _]].
    rewrite Af. cbn [tbind obind]. unfold on_receive, BankAccount_ReceiveRole, deposit.
    rewrite MoneyFacts.add_diff_currency by exact Ht. reflexivity.
Qed.

Lemma transfer_currency_mismatch_witness :
  transfer (mkTransferContext (BankAccount.new 1 1 (mkMoney (from_i32 1000) JPY))
                              (BankAccount.new 2 1 (mkMoney (from_i32 0) USD)))
           (mkMoney (from_i32 10) JPY) = Ret (Err NotSameCurrencyError).
Proof.
  apply (proj2 (transfer_currency_mismatch
                  (BankAccount.new 1 1 (mkMoney (from_i32 1000) JPY))
                  (BankAccount.new 2 1 (mkMoney (from_i32 0) USD))
                  (mkMoney (from_i32 10) JPY))); [reflexivity | reflexivity | discriminate].
Defined.

(** Depositing an amount and withdrawing it again gives back an account
    with the same identifiers and an equal balance, when the deposit does
    not overflow. *)
Theorem deposit_withdraw_roundtrip (a : BankAccount) (m : Money) :
  wf (amount (balance a)) -> currency (balance a) = currency m ->
  fits (fst (exact_sum (amount (balance a)) (amount m))) = true ->
  exists a1 a2, deposit a m = Ret (Ok a1) /\ withdraw a1 m = Ret (Ok a2)
    /\ id a2 = id a /\ user_account_id a2 = user_account_id a
    /\ Money.eqb (balance a2) (balance a) = true.
Proof.
  intros [Hw _] Hc Hs.
  destruct (MoneyFacts.money_add_fits (balance a) m Hc Hs) as [r [A [Cr [Sr Vr]]]].
  destruct (MoneyFacts.subtract_after_add (balance a) m r Hw (eq_sym Hc) Cr Sr
              (Vr _ (Nat.le_refl _))) as [r' [Sub Eq]].
  exists (mkBankAccount (id a) (user_account_id a) r),
         (mkBankAccount (id a) (user_account_id a) r').
  unfold deposit, withdraw. rewrite A. cbn [tbind obind BankAccount.balance].
  split; [reflexivity|]. rewrite Sub. cbn [tbind obind].
  split; [reflexivity|]. cbn [BankAccount.id BankAccount.user_account_id BankAccount.balance].
  split; [reflexivity | split; [reflexivity | exact Eq]].
Qed.

Lemma deposit_withdraw_roundtrip_witness :
  exists a1 a2,
    deposit (BankAccount.new 1 1 (mkMoney (mkDecimal 150 2) USD)) (mkMoney (from_i32 3) USD)
      = Ret (Ok a1)
    /\ withdraw a1 (mkMoney (from_i32 3) USD) = Ret (Ok a2)
    /\ id a2 = 1%N /\ user_account_id a2 = 1%N
    /\ Money.eqb (balance a2) (mkMoney (mkDecimal 150 2) USD) = true.
Proof.
  apply (deposit_withdraw_roundtrip (BankAccount.new 1 1 (mkMoney (mkDecimal 150 2) USD))
                                    (mkMoney (from_i32 3) USD)).
  - split; [reflexivity | unfold MAX_PRECISION; simpl; lia].
  - reflexivity.
  - reflexivity.
Defined.

(** [times] keeps the currency and never reports an error: multiplying by
    one gives back an equal [Money] (for an amount the decimal type can
    hold), and multiplying by zero gives a zero, whatever the crate does for
    products that need rounding. *)
Theorem times_one_zero (mul_reduce : Z -> nat -> outcome Decimal) (m : Money) :
  wf (amount m) ->
  (exists m', times mul_reduce m (from_i32 1) = Ret m' /\ Money.eqb m' m = true)
  /\ (exists z, times mul_reduce m Decimal.zero = Ret z /\ is_zero z = true
                /\ currency z = currency m).
Proof.
  intros [Hf Hs]. destruct m as [[x s] c]. simpl in *.
  unfold times, Decimal.mul. simpl. split.
  - destruct (Z.eqb_spec x 0) as [->|Hx]; simpl.
    + eexists; split; [reflexivity|]. unfold Money.eqb, Decimal.eqb, cmp. simpl.
      rewrite currency_eqb_refl. reflexivity.
    + rewrite Z.mul_1_r, Hf, Nat.add_0_r.
      replace (Nat.leb s MAX_PRECISION) with true by (symmetry; apply Nat.leb_le; exact Hs).
      unfold Decimal.is_zero. simpl.
      replace (x =? 0) with false by (symmetry; apply Z.eqb_neq; exact Hx).
      simpl. eexists; split; [reflexivity|].
      unfold Money.eqb. simpl. rewrite DecimalFacts.decimal_eqb_refl, currency_eqb_refl. reflexivity.
  - rewrite orb_true_r. simpl. eexists; split; [reflexivity|]. split; reflexivity.
Qed.

Lemma times_one_zero_witness :
  exists m', times (fun _ _ => Panic "Multiplication overflowed")
                   (mkMoney (mkDecimal 150 2) USD) (from_i32 1) = Ret m'
             /\ Money.eqb m' (mkMoney (mkDecimal 150 2) USD) = true.
Proof.
  apply (times_one_zero (fun _ _ => Panic "Multiplication overflowed")
                        (mkMoney (mkDecimal 150 2) USD)).
  split; [reflexivity | unfold MAX_PRECISION; simpl; lia].
Defined.
